(** * The Siglent SPD3303C driver of PyMeasure, embedded in Rocq

    Source: [pymeasure/instruments/siglent/spd3303c.py].

    The file has four groups of definitions, followed by the theorems:
    - [Py]: the fragment of Python the driver runs on (exceptions, scalar
      values, number comparison, [str.strip], [str.split], [int(text, 16)],
      the [%] operator);
    - [Instrument]: the session the driver talks to and the property factory
      [Instrument.control] / [Instrument.setting] / [Instrument.measurement]
      together with the validators [strict_range] and [strict_discrete_set];
    - [SPD3303C]: the driver itself, declaration by declaration;
    - [Claimed]: the wording of the specification where it is compared with
      the driver. *)

From Stdlib Require Import ZArith QArith List String Ascii Bool Lia.
From Stdlib Require Import DecimalString.
Import ListNotations.

Open Scope string_scope.
Open Scope Z_scope.

(* ================================================================== *)
(** ** Python values and built-ins *)
(* ================================================================== *)

Module Py.

(** The exception classes that can leave the driver. [VisaIOError] is what
    the transport raises when no reply arrives. *)
Inductive Exn : Set :=
| AssertionError
| AttributeError
| IndexError
| KeyError
| LookupError
| OverflowError
| TypeError
| ValueError
| VisaIOError.

(** Outcome of evaluating an expression: a value or a raised exception. *)
Inductive Result (A : Type) : Type :=
| Ok (a : A)
| Raise (e : Exn).

Arguments Ok {A} a.
Arguments Raise {A} e.

Definition rbind {A B : Type} (r : Result A) (k : A -> Result B) : Result B :=
  match r with
  | Ok a => k a
  | Raise e => Raise e
  end.

(** A Python [float] as far as ordering sees it: a finite value (every
    finite binary64 number is a rational), an infinity, or not-a-number. *)
Inductive pyfloat : Set :=
| Finite (q : Q)
| PosInf
| NegInf
| NaN.

(** Scalar objects: [None], [bool], [int] (unbounded), [float], [str].
    Characters of a [str] are code points below 256. *)
Inductive PyVal : Set :=
| PNone
| PBool (b : bool)
| PInt (z : Z)
| PFloat (f : pyfloat)
| PStr (s : string).

(** What a property getter hands to [get_process]: one scalar, or the
    whole list of reply fields. *)
Inductive PyObj : Set :=
| Atom (v : PyVal)
| Seq (l : list PyVal).

(** Text of a float and float of a text ([str(x)] and [float(s)]): the
    driver never looks inside either, so they are kept abstract. *)
Class FloatText : Type := {
  float_of_str : string -> option pyfloat;
  str_of_float : pyfloat -> string
}.

(** *** Numbers and comparison *)

(** [bool] is a subclass of [int]; [int] and [float] compare by value. *)
Definition number (v : PyVal) : option pyfloat :=
  match v with
  | PBool b => Some (Finite (if b then 1%Q else 0%Q))
  | PInt z => Some (Finite (inject_Z z))
  | PFloat f => Some f
  | PNone | PStr _ => None
  end.

(** IEEE ordering: every comparison with NaN is false. *)
Definition float_le (x y : pyfloat) : bool :=
  match x, y with
  | NaN, _ | _, NaN => false
  | NegInf, _ => true
  | _, PosInf => true
  | Finite a, Finite b => Qle_bool a b
  | _, _ => false
  end.

Definition float_lt (x y : pyfloat) : bool :=
  match x, y with
  | NaN, _ | _, NaN => false
  | PosInf, _ => false
  | _, NegInf => false
  | Finite a, Finite b => negb (Qle_bool b a)
  | _, _ => true
  end.

Definition float_eq (x y : pyfloat) : bool :=
  match x, y with
  | Finite a, Finite b => Qeq_bool a b
  | PosInf, PosInf => true
  | NegInf, NegInf => true
  | _, _ => false
  end.

(** [a <= b] *)
Definition py_le (a b : PyVal) : Result bool :=
  match number a, number b with
  | Some x, Some y => Ok (float_le x y)
  | _, _ =>
      match a, b with
      | PStr s, PStr t => Ok (String.leb s t)
      | _, _ => Raise TypeError
      end
  end.

(** [a < b] *)
Definition py_lt (a b : PyVal) : Result bool :=
  match number a, number b with
  | Some x, Some y => Ok (float_lt x y)
  | _, _ =>
      match a, b with
      | PStr s, PStr t => Ok (String.ltb s t)
      | _, _ => Raise TypeError
      end
  end.

(** [a == b] *)
Definition py_eq (a b : PyVal) : bool :=
  match number a, number b with
  | Some x, Some y => float_eq x y
  | _, _ =>
      match a, b with
      | PStr s, PStr t => String.eqb s t
      | PNone, PNone => true
      | _, _ => false
      end
  end.

(** [min(l)] and [max(l)]: the first extremal element, found with [<]. *)
Fixpoint min_from (best : PyVal) (l : list PyVal) : Result PyVal :=
  match l with
  | [] => Ok best
  | x :: l' =>
      rbind (py_lt x best) (fun b => min_from (if b then x else best) l')
  end.

Definition py_min (l : list PyVal) : Result PyVal :=
  match l with
  | [] => Raise ValueError
  | x :: l' => min_from x l'
  end.

Fixpoint max_from (best : PyVal) (l : list PyVal) : Result PyVal :=
  match l with
  | [] => Ok best
  | x :: l' =>
      rbind (py_lt best x) (fun b => max_from (if b then x else best) l')
  end.

Definition py_max (l : list PyVal) : Result PyVal :=
  match l with
  | [] => Raise ValueError
  | x :: l' => max_from x l'
  end.

(** *** Text *)

Definition code (c : ascii) : Z := Z.of_N (N_of_ascii c).

Definition between (lo hi n : Z) : bool := (lo <=? n) && (n <=? hi).

(** [str.isspace] on one character. *)
Definition isspace (c : ascii) : bool :=
  let n := code c in
  between 9 13 n || between 28 32 n || (n =? 133) || (n =? 160).

(** The white space [int()] skips: the ASCII one, and the two further
    Latin-1 spaces, which [int()] first rewrites to a blank. *)
Definition isspace_int (c : ascii) : bool :=
  let n := code c in
  between 9 13 n || (n =? 32) || (n =? 133) || (n =? 160).

Fixpoint lstrip (sp : ascii -> bool) (s : string) : string :=
  match s with
  | String c s' => if sp c then lstrip sp s' else s
  | EmptyString => EmptyString
  end.

Fixpoint rstrip (sp : ascii -> bool) (s : string) : string :=
  match s with
  | String c s' =>
      match rstrip sp s' with
      | EmptyString => if sp c then EmptyString else String c EmptyString
      | r => String c r
      end
  | EmptyString => EmptyString
  end.

(** [s.strip()] *)
Definition py_strip (s : string) : string := rstrip isspace (lstrip isspace s).

(** Left-to-right scan of [s.split(sep)] for a non-empty [sep]: [cur] is
    the field being collected, [skip] the number of characters of a matched
    separator still to pass over. *)
Fixpoint split_go (sep : string) (skip : nat) (cur : string) (s : string)
  : list string :=
  match s with
  | EmptyString => [cur]
  | String c s' =>
      match skip with
      | S k => split_go sep k cur s'
      | O =>
          if String.prefix sep s
          then cur :: split_go sep (Nat.pred (String.length sep)) "" s'
          else split_go sep O (cur ++ String c "") s'
      end
  end.

(** [s.split(sep)]; an empty separator is a [ValueError]. *)
Definition py_split (s sep : string) : Result (list string) :=
  match sep with
  | EmptyString => Raise ValueError
  | _ => Ok (split_go sep O "" s)
  end.

(** [l[i]] for a non-negative literal index. *)
Definition py_index {A : Type} (l : list A) (i : nat) : Result A :=
  match nth_error l i with
  | Some a => Ok a
  | None => Raise IndexError
  end.

(** Value of a digit character, 37 for a character that is no digit. *)
Definition digit_value (c : ascii) : Z :=
  let n := code c in
  if between 48 57 n then n - 48
  else if between 97 122 n then n - 87
  else if between 65 90 n then n - 55
  else 37.

Definition is_underscore (c : ascii) : bool := Ascii.eqb c "_".

(** The digit loop of [int()]: digits below [base], single underscores
    between them. Returns the value, whether anything was consumed, and the
    unread rest; [None] on a doubled or trailing underscore. *)
Fixpoint scan_digits (base : Z) (prev_us any : bool) (acc : Z) (s : string)
  : option (Z * bool * string) :=
  match s with
  | EmptyString => if prev_us then None else Some (acc, any, s)
  | String c s' =>
      if is_underscore c then
        if prev_us then None else scan_digits base true true acc s'
      else if digit_value c <? base then
        scan_digits base false true (acc * base + digit_value c) s'
      else if prev_us then None else Some (acc, any, s)
  end.

Definition strip_sign (s : string) : bool * string :=
  match s with
  | String "+" s' => (false, s')
  | String "-" s' => (true, s')
  | _ => (false, s)
  end.

(** The optional prefix of bases 16, 8 and 2 ([0x], [0o], [0b], in either
    case), after which one underscore may follow. *)
Definition prefix_letter (base : Z) (c : ascii) : bool :=
  if base =? 16 then Ascii.eqb c "x" || Ascii.eqb c "X"
  else if base =? 8 then Ascii.eqb c "o" || Ascii.eqb c "O"
  else if base =? 2 then Ascii.eqb c "b" || Ascii.eqb c "B"
  else false.

Definition strip_prefix (base : Z) (s : string) : string :=
  match s with
  | String "0" (String c s') =>
      if prefix_letter base c then
        match s' with
        | String "_" s'' => s''
        | _ => s'
        end
      else s
  | _ => s
  end.

Definition all_space (s : string) : bool :=
  match lstrip isspace_int s with
  | EmptyString => true
  | _ => false
  end.

(** [int(text, base)] for an explicit base between 2 and 36. *)
Definition py_int (text : string) (base : Z) : Result Z :=
  let (neg, s1) := strip_sign (lstrip isspace_int text) in
  let s2 := strip_prefix base s1 in
  match s2 with
  | String "_" _ => Raise ValueError
  | _ =>
      match scan_digits base false false 0 s2 with
      | Some (v, true, rest) =>
          if all_space rest then Ok (if neg then - v else v)
          else Raise ValueError
      | _ => Raise ValueError
      end
  end.

(** [int(v)]: truncation of a float towards zero, base 10 for a text. *)
Definition py_int_of (v : PyVal) : Result Z :=
  match v with
  | PNone => Raise TypeError
  | PBool b => Ok (if b then 1 else 0)
  | PInt z => Ok z
  | PFloat (Finite q) => Ok (Z.quot (Qnum q) (Zpos (Qden q)))
  | PFloat NaN => Raise ValueError
  | PFloat _ => Raise OverflowError
  | PStr s => py_int s 10
  end.

(** Decimal text of an [int]. *)
Definition str_of_int (z : Z) : string := NilZero.string_of_int (Z.to_int z).

(** [str(v)] *)
Definition py_str `{FloatText} (v : PyVal) : string :=
  match v with
  | PNone => "None"
  | PBool true => "True"
  | PBool false => "False"
  | PInt z => str_of_int z
  | PFloat f => str_of_float f
  | PStr s => s
  end.

(** [template % value] for a scalar [value], so for exactly one argument.
    [arg] is the argument while it is still unused. A conversion with no
    argument left, or an argument left over at the end, is a [TypeError]; a
    lone [%] at the end is a [ValueError]. Of the conversions only [%s] and
    [%%] are interpreted, which are all that the templates of the driver
    contain; any other character after [%] is answered like one that is no
    conversion, with [ValueError]. *)
Fixpoint format_go (template : string) (arg : option string) : Result string :=
  match template with
  | EmptyString =>
      match arg with
      | Some _ => Raise TypeError
      | None => Ok ""
      end
  | String c rest =>
      if Ascii.eqb c "%" then
        match rest with
        | EmptyString => Raise ValueError
        | String d rest' =>
            if Ascii.eqb d "%" then
              rbind (format_go rest' arg) (fun t => Ok (String "%" t))
            else if Ascii.eqb d "s" then
              match arg with
              | Some a => rbind (format_go rest' None) (fun t => Ok (a ++ t))
              | None => Raise TypeError
              end
            else Raise ValueError
        end
      else rbind (format_go rest arg) (fun t => Ok (String c t))
  end.

Definition py_format `{FloatText} (template : string) (value : PyVal)
  : Result string :=
  format_go template (Some (py_str value)).

End Py.


(* ================================================================== *)
(** ** The instrument session and the property factory *)
(* ================================================================== *)

Module Instrument.
Import Py.

(** What the session has been asked to do, oldest first. *)
Inductive Event : Set :=
| Write (command : string)
| Query (command : string)
| Close.

(** The session: the traffic so far and the replies the device will give,
    next one first. *)
Record Session : Set := {
  sent : list Event;
  inbox : list string
}.

(** A driver action: it runs on a session and leaves a session, with a
    value or an exception. *)
Definition Action (A : Type) : Type := Session -> Result A * Session.

Definition ret {A : Type} (a : A) : Action A := fun s => (Ok a, s).

Definition raise {A : Type} (e : Exn) : Action A := fun s => (Raise e, s).

Definition bind {A B : Type} (m : Action A) (k : A -> Action B) : Action B :=
  fun s =>
    match m s with
    | (Ok a, s') => k a s'
    | (Raise e, s') => (Raise e, s')
    end.

Definition lift {A : Type} (r : Result A) : Action A := fun s => (r, s).

Notation "x <- m ;; k" := (bind m (fun x => k))
  (at level 61, m at next level, right associativity).
Notation "m ;;; k" := (bind m (fun _ => k))
  (at level 61, right associativity).

Definition emit (e : Event) (s : Session) : Session :=
  {| sent := sent s ++ [e]; inbox := inbox s |}.

(** Modelled from the spec: [write] of the transport ([pymeasure.adapters],
    not among the sources), the [write(command: string)] of the external
    collaborator of section 6. *)
Definition write (command : string) : Action unit :=
  fun s => (Ok tt, emit (Write command) s).

(** Modelled from the spec: [ask] of the transport (not among the sources),
    the [ask(query: string) -> string] of section 6, "write-then-read-line".
    A query that gets no reply fails in the transport. *)
Definition ask (command : string) : Action string :=
  fun s =>
    match inbox s with
    | reply :: later =>
        (Ok reply, {| sent := sent s ++ [Query command]; inbox := later |})
    | [] => (Raise VisaIOError, emit (Query command) s)
    end.

(** Modelled from the spec: the close of the transport (not among the
    sources), the "close" of the open/close/identify semantics of
    section 6. *)
Definition close : Action unit :=
  fun s => (Ok tt, emit Close s).

(** A session just opened, with the replies the device is going to give. *)
Definition fresh (replies : list string) : Session :=
  {| sent := []; inbox := replies |}.

(** Modelled from the spec: the cast that [values] of the transport (not
    among the sources) applies to a reply field, "parse reply as
    floating-point"; a field that is no float stays a text. *)
Definition cast_float `{FloatText} (field : string) : PyVal :=
  match float_of_str field with
  | Some f => PFloat f
  | None => PStr field
  end.

(** Modelled from the spec: [values(command)] of the transport (not among
    the sources): ask, strip the reply, split it at commas, cast each
    field. *)
Definition read_values `{FloatText} (command : string) : Action (list PyVal) :=
  reply <- ask command ;;
  fields <- lift (py_split (py_strip reply) ",") ;;
  ret (map cast_float fields).

(** The [values] keyword of a property: a tuple (the default [()]), a list,
    or a dict with its items in insertion order. *)
Inductive Values : Set :=
| VTuple (l : list PyVal)
| VList (l : list PyVal)
| VDict (d : list (PyVal * PyVal)).

(** Iterating a dict yields its keys. *)
Definition elements (vs : Values) : list PyVal :=
  match vs with
  | VTuple l | VList l => l
  | VDict d => map fst d
  end.

(** Modelled from the spec: [strict_range] of
    [pymeasure.instruments.validators] (not among the sources). It returns
    the value when it is "within [lo, hi] inclusive", that is when
    [min(values) <= value <= max(values)], and "fails with RangeError
    otherwise": a [ValueError]. *)
Definition strict_range (value : PyVal) (values : Values) : Result PyVal :=
  rbind (py_min (elements values)) (fun lo =>
  rbind (py_le lo value) (fun above =>
  if above then
    rbind (py_max (elements values)) (fun hi =>
    rbind (py_le value hi) (fun below =>
    if below then Ok value else Raise ValueError))
  else Raise ValueError)).

(** Modelled from the spec: [strict_discrete_set] of
    [pymeasure.instruments.validators] (not among the sources). It returns
    the value when [value in values] (for a dict: among its keys) and fails
    otherwise (InvalidArgument): a [ValueError]. *)
Definition strict_discrete_set (value : PyVal) (values : Values)
  : Result PyVal :=
  if existsb (py_eq value) (elements values) then Ok value
  else Raise ValueError.


(** Modelled from the spec: the [get_process] a property has when a
    declaration gives none, [lambda v: v]. *)
Definition no_process (v : PyObj) : Result PyObj := Ok v.

(** Modelled from the spec: the property descriptor behind
    [Instrument.control], [Instrument.measurement] and [Instrument.setting]
    ([pymeasure/instruments/instrument.py], not among the sources). It is
    the record of section 9, "{readCommand, writeCommandTemplate, validator,
    valueMap|range, postProcess}", with one more field: the keyword
    [map_values], which decides whether [values] also translates the value
    or only serves the validator. *)
Record Property : Type := {
  get_command : option string;
  set_command : option string;
  validator : PyVal -> Values -> Result PyVal;
  values : Values;
  map_values : bool;
  get_process : PyObj -> Result PyObj
}.

(** Modelled from the spec: the default of the keyword [map_values] in the
    signatures of [Instrument.control] and [Instrument.setting] (not among
    the sources), [map_values=False]. The specification does not speak of
    the keyword; no declaration of the driver passes it. *)
Definition map_values_default : bool := false.

(** Modelled from the spec: [Instrument.control(get_command, set_command,
    docstring, validator=, values=, map_values=, get_process=)] (not among
    the sources). The read command comes first and the write template
    second, as in the descriptor of section 9 and in the declarations of
    the statuses, the setting and the measurements of the driver. *)
Definition control (get_command set_command : string)
    (validator : PyVal -> Values -> Result PyVal) (values : Values)
    (map_values : bool) (get_process : PyObj -> Result PyObj) : Property :=
  {| get_command := Some get_command;
     set_command := Some set_command;
     validator := validator;
     values := values;
     map_values := map_values;
     get_process := get_process |}.


(** Modelled from the spec: [Instrument.setting(set_command, docstring,
    validator=, values=, map_values=)] (not among the sources), "a settable
    property with no paired query". *)
Definition setting (set_command : string)
    (validator : PyVal -> Values -> Result PyVal) (values : Values)
    (map_values : bool) : Property :=
  {| get_command := None;
     set_command := Some set_command;
     validator := validator;
     values := values;
     map_values := map_values;
     get_process := no_process |}.

(** Modelled from the spec: the translation of a value to be written,
    under [map_values] (not among the sources): its index in a list or
    tuple, its image in a dict ("maps {true -> ON, false -> OFF}"). *)
Fixpoint index_of (value : PyVal) (l : list PyVal) (i : Z) : Result PyVal :=
  match l with
  | [] => Raise ValueError
  | x :: l' => if py_eq x value then Ok (PInt i) else index_of value l' (i + 1)
  end.

Fixpoint lookup (key : PyVal) (d : list (PyVal * PyVal)) : Result PyVal :=
  match d with
  | [] => Raise KeyError
  | (k, v) :: d' => if py_eq k key then Ok v else lookup key d'
  end.

Definition map_to_wire (vs : Values) (value : PyVal) : Result PyVal :=
  match vs with
  | VTuple l | VList l => index_of value l 0
  | VDict d => lookup value d
  end.

(** Modelled from the spec: the translation of a value read back, under
    [map_values] (not among the sources): the element at that index, the
    first key with that image. *)
Definition subscript (l : list PyVal) (i : Z) : Result PyVal :=
  let n := Z.of_nat (List.length l) in
  let j := if i <? 0 then i + n else i in
  if (j <? 0) || (n <=? j) then Raise IndexError
  else py_index l (Z.to_nat j).

Fixpoint key_of (value : PyVal) (d : list (PyVal * PyVal)) : Result PyVal :=
  match d with
  | [] => Raise KeyError
  | (k, v) :: d' => if py_eq v value then Ok k else key_of value d'
  end.

Definition map_from_wire (vs : Values) (value : PyObj) : Result PyObj :=
  match vs, value with
  | VDict d, Atom v => rbind (key_of v d) (fun k => Ok (Atom k))
  | VDict d, Seq _ => Raise KeyError
  | (VTuple l | VList l), Atom v =>
      rbind (py_int_of v) (fun i => rbind (subscript l i) (fun x => Ok (Atom x)))
  | (VTuple l | VList l), Seq _ => Raise TypeError
  end.

(** Modelled from the spec: the generic getter of a property (not among
    the sources). Without a read command the read is refused. Otherwise
    the read command is sent as a query and the reply fields are read; a
    single field goes through [get_process] and, under [map_values], back
    through [values]; several fields go through [get_process] as a list. *)
Definition fget `{FloatText} (p : Property) : Action PyObj :=
  match get_command p with
  | None => raise LookupError
  | Some command =>
      vals <- read_values command ;;
      match vals with
      | [v] =>
          value <- lift (get_process p (Atom v)) ;;
          if map_values p then lift (map_from_wire (values p) value)
          else ret value
      | _ => lift (get_process p (Seq vals))
      end
  end.

(** Modelled from the spec: the generic setter of a property (not among
    the sources): validate ("all validation failures are raised before any
    bytes are sent"), translate under [map_values], fill the write template
    with [%], write. A property without a write template cannot be
    assigned to. *)
Definition fset `{FloatText} (p : Property) (value : PyVal) : Action unit :=
  match set_command p with
  | None => raise AttributeError
  | Some template =>
      checked <- lift (validator p value (values p)) ;;
      mapped <- lift (if map_values p then map_to_wire (values p) checked
                      else Ok checked) ;;
      command <- lift (py_format template mapped) ;;
      write command
  end.

(** Modelled from the spec: [Instrument.__init__] (not among the sources):
    it "binds to the given communication session" and sends nothing. *)
Definition Instrument_init (resourceName name : string) : Action unit := ret tt.

(** Modelled from the spec: [Instrument.shutdown] (not among the sources):
    it "releases/closes the underlying session". *)
Definition Instrument_shutdown : Action unit := close.

End Instrument.

(* ================================================================== *)
(** ** The driver: spd3303c.py *)
(* ================================================================== *)

Module SPD3303C.
Import Py.
Import Instrument.

(** List of controllable channels on the power supply *)
Definition CONTROLLABLE_CHANNELS : list Z := [1; 2].

(** List of all channels on the power supply *)
Definition ALL_CHANNELS : list Z := CONTROLLABLE_CHANNELS ++ [3].

(** Values map for channel status validator *)
Definition CHANNEL_STATUS_VALUE_MAP : Values :=
  VDict [(PBool true, PStr "ON"); (PBool false, PStr "OFF")].

(** Range of valid voltage values for the controllable channels *)
Definition CHANNEL_VOLTAGE_RANGE : Values :=
  VList [PFloat (Finite 0); PFloat (Finite 32)].

(** The float written [3.2]: the binary64 number nearest to it. *)
Definition float_3_2 : Q := 3602879701896397 # 1125899906842624.

(** Range of valid current values for the controllable channels *)
Definition CHANNEL_CURRENT_RANGE : Values :=
  VList [PInt 0; PFloat (Finite float_3_2)].

(** [self.ask('SYSTem:STATus?').split('0x')[1]], then [int(response, 16)]. *)
Definition _get_system_status : Action Z :=
  reply <- ask "SYSTem:STATus?" ;;
  parts <- lift (py_split reply "0x") ;;
  response <- lift (py_index parts 1) ;;
  lift (py_int response 16).

(** [status & mask] for an [int] mask: defined on [int] and [bool]. *)
Definition py_and (status : PyObj) (mask : Z) : Result Z :=
  match status with
  | Atom (PInt z) => Ok (Z.land z mask)
  | Atom (PBool b) => Ok (Z.land (if b then 1 else 0) mask)
  | _ => Raise TypeError
  end.

Definition _decode_channel_status (status : PyObj) (channel : Z)
  : Result PyVal :=
  if negb (existsb (Z.eqb channel) CONTROLLABLE_CHANNELS)
  then Raise AssertionError
  else
    let mask := Z.shiftl 1 (channel + 3) in
    rbind (py_and status mask) (fun bits =>
    Ok (PStr (if negb (bits =? 0) then "ON" else "OFF"))).

(** [get_process=lambda status: SPD3303C._decode_channel_status(status, n)] *)
Definition decode_for (channel : Z) (status : PyObj) : Result PyObj :=
  rbind (_decode_channel_status status channel) (fun v => Ok (Atom v)).

Definition ch1_status : Property :=
  control "SYSTem:STATus?" "OUTPut CH1,%s"
    strict_discrete_set CHANNEL_STATUS_VALUE_MAP map_values_default
    (decode_for 1).

Definition ch2_status : Property :=
  control "SYSTem:STATus?" "OUTPut CH2,%s"
    strict_discrete_set CHANNEL_STATUS_VALUE_MAP map_values_default
    (decode_for 2).

Definition ch3_status : Property :=
  setting "OUTPut CH3,%s"
    strict_discrete_set CHANNEL_STATUS_VALUE_MAP map_values_default.

Definition ch1_voltage : Property :=
  control "CH1:VOLTage %s" "CH1:VOLTage?"
    strict_range CHANNEL_VOLTAGE_RANGE map_values_default no_process.

Definition ch2_voltage : Property :=
  control "CH2:VOLTage %s" "CH2:VOLTage?"
    strict_range CHANNEL_VOLTAGE_RANGE map_values_default no_process.

Definition ch1_current : Property :=
  control "CH1:CURRent %s" "CH1:CURRent?"
    strict_range CHANNEL_CURRENT_RANGE map_values_default no_process.

Definition ch2_current : Property :=
  control "CH2:CURRent %s" "CH2:CURRent?"
    strict_range CHANNEL_CURRENT_RANGE map_values_default no_process.





Definition __init__ `{FloatText} (resourceName : string) : Action unit :=
  Instrument_init resourceName "Siglent SPD3303C" ;;;
  fset ch1_status (PBool false) ;;;
  fset ch2_status (PBool false) ;;;
  fset ch3_status (PBool false).

(** Turn all channels OFF and close connection to the device. *)
Definition shutdown `{FloatText} : Action unit :=
  fset ch1_status (PBool false) ;;;
  fset ch2_status (PBool false) ;;;
  fset ch3_status (PBool false) ;;;
  Instrument_shutdown.

End SPD3303C.

(* ================================================================== *)
(** ** The wording of the specification *)
(* ================================================================== *)

Module Claimed.
Import Py Instrument SPD3303C.

(** [s] without its first [n] characters. *)
Fixpoint drop (n : nat) (s : string) : string :=
  match n, s with
  | S k, String _ s' => drop k s'
  | _, _ => s
  end.

(** The text before and the text after the first occurrence of [sep]. *)
Fixpoint cut (sep s : string) : option (string * string) :=
  if String.prefix sep s then Some ("", drop (String.length sep) s)
  else
    match s with
    | EmptyString => None
    | String c s' =>
        match cut sep s' with
        | Some (a, b) => Some (String c a, b)
        | None => None
        end
    end.

(** "Extracts the substring after the first [0x] token and parses it as a
    base-16 integer"; [None] is the failure, for a reply without [0x] or
    with a hex segment that does not parse. *)
Definition hex_after_first_0x (reply : string) : option Z :=
  match cut "0x" reply with
  | None => None
  | Some (_, after) =>
      match py_int after 16 with
      | Ok n => Some n
      | Raise _ => None
      end
  end.

(** An outcome of the code agrees with a claimed one when it is the claimed
    number, or an exception where a failure is claimed. *)
Definition agrees (outcome : Result Z) (claimed : option Z) : Prop :=
  match claimed with
  | Some n => outcome = Ok n
  | None => exists e, outcome = Raise e
  end.

(** A hex digit, and the number a string of hex digits denotes. *)
Definition is_hex_digit (c : ascii) : bool := digit_value c <? 16.

Definition hex_value (digits : string) : Z :=
  fold_left (fun a c => a * 16 + digit_value c) (list_ascii_of_string digits) 0.

(** The text up to the next [0x], or all of it when there is none. *)
Definition up_to_0x (text : string) : string :=
  match cut "0x" text with
  | Some (segment, _) => segment
  | None => text
  end.

(** "Calls GetSystemStatus, then DecodeChannelStatus on the returned status
    word with channel n". *)
Definition status_from_system_status (channel : Z) : Action PyVal :=
  word <- _get_system_status ;;
  lift (_decode_channel_status (Atom (PInt word)) channel).

End Claimed.

(** The seven properties of the driver that can be assigned to. *)
Definition assignable : list Instrument.Property :=
  [SPD3303C.ch1_status; SPD3303C.ch2_status; SPD3303C.ch3_status;
   SPD3303C.ch1_voltage; SPD3303C.ch2_voltage;
   SPD3303C.ch1_current; SPD3303C.ch2_current].

(** A [FloatText] to evaluate examples with; what it answers plays no part
    in any statement below, each of which holds for every [FloatText]. *)
Definition plain_text : Py.FloatText :=
  {| Py.float_of_str := fun _ => None; Py.str_of_float := fun _ => "nan" |}.



(** [c not in s] *)
Fixpoint lacks (c : ascii) (s : string) : bool :=
  match s with
  | EmptyString => true
  | String d s' => negb (Ascii.eqb d c) && lacks c s'
  end.

(** [sep.join(fields)] *)
Fixpoint join (sep : string) (fields : list string) : string :=
  match fields with
  | [] => ""
  | [x] => x
  | x :: rest => x ++ sep ++ join sep rest
  end.

(** Every character of [s] is a hex digit. *)
Definition all_hex (s : string) : bool :=
  forallb Claimed.is_hex_digit (list_ascii_of_string s).

(* ================================================================== *)
(** ** Properties *)
(* ================================================================== *)

Import Py Instrument SPD3303C Claimed.

(** *** Text: [split] and the first occurrence of a separator *)

Section Text.

Lemma append_empty (s : string) : s ++ "" = s.
Proof. induction s as [|c s IH]; simpl; [reflexivity | now rewrite IH]. Qed.

Lemma append_cons (a : string) (c : ascii) (b : string) :
  (a ++ String c "") ++ b = a ++ String c b.
Proof. induction a as [|x a IH]; simpl; [reflexivity | now rewrite IH]. Qed.

Lemma length_app (a b : string) :
  String.length (a ++ b) = (String.length a + String.length b)%nat.
Proof. induction a as [|x a IH]; simpl; [reflexivity | now rewrite IH]. Qed.

Lemma prefix_app (a b : string) : String.prefix a (a ++ b) = true.
Proof.
  induction a as [|x a IH]; simpl.
  - now destruct b.
  - destruct (ascii_dec x x) as [_|N]; [exact IH | now elim N].
Qed.

Lemma prefix_split (a s : string) :
  String.prefix a s = true -> s = a ++ drop (String.length a) s.
Proof.
  revert s; induction a as [|x a IH]; intros s H.
  - now destruct s.
  - destruct s as [|y s]; simpl in H; [discriminate|].
    destruct (ascii_dec x y) as [->|_]; [|discriminate].
    simpl. f_equal. now apply IH.
Qed.

Lemma prefix_length (a s : string) :
  String.prefix a s = true -> (String.length a <= String.length s)%nat.
Proof.
  intros H. pose proof (prefix_split a s H) as E.
  rewrite E, length_app. lia.
Qed.

(** [cut] finds an occurrence ... *)
Lemma cut_occurrence (sep s a b : string) :
  cut sep s = Some (a, b) -> s = a ++ sep ++ b.
Proof.
  revert a b; induction s as [|c s IH]; intros a b H.
  - cbn [cut] in H. destruct (String.prefix sep "") eqn:P; [|discriminate].
    injection H as <- <-. now apply prefix_split.
  - cbn [cut] in H. destruct (String.prefix sep (String c s)) eqn:P.
    + injection H as <- <-. now apply prefix_split.
    + destruct (cut sep s) as [[a' b']|] eqn:C; [|discriminate].
      injection H as <- <-. simpl. f_equal. now apply IH.
Qed.

(** ... the leftmost one ... *)
Lemma cut_leftmost (sep s a b a' b' : string) :
  cut sep s = Some (a, b) -> s = a' ++ sep ++ b' ->
  (String.length a <= String.length a')%nat.
Proof.
  revert a b a'; induction s as [|c s IH]; intros a b a' H E.
  - cbn [cut] in H. destruct (String.prefix sep "") eqn:P; [|discriminate].
    injection H as <- <-. simpl; lia.
  - cbn [cut] in H. destruct (String.prefix sep (String c s)) eqn:P.
    + injection H as <- <-. simpl; lia.
    + destruct (cut sep s) as [[a0 b0]|] eqn:C; [|discriminate].
      injection H as <- <-.
      destruct a' as [|x a'].
      * simpl in E. rewrite E, prefix_app in P. discriminate.
      * simpl in E. injection E as _ E. simpl.
        apply le_n_S. now apply (IH a0 b0 a').
Qed.

(** ... and fails only when there is none. *)
Lemma cut_none (sep s : string) :
  cut sep s = None -> forall a b, s <> a ++ sep ++ b.
Proof.
  induction s as [|c s IH]; intros H a b E.
  - cbn [cut] in H. destruct (String.prefix sep "") eqn:P; [discriminate|].
    destruct a; [|discriminate]. simpl in E.
    rewrite E, prefix_app in P. discriminate.
  - cbn [cut] in H. destruct (String.prefix sep (String c s)) eqn:P; [discriminate|].
    destruct (cut sep s) as [[a0 b0]|] eqn:C; [discriminate|].
    destruct a as [|x a].
    + simpl in E. rewrite E, prefix_app in P. discriminate.
    + simpl in E. injection E as _ E. now apply (IH eq_refl a b).
Qed.

(** Passing over the rest of a matched separator. *)
Lemma split_go_skip (sep : string) (k : nat) (cur s : string) :
  (k <= String.length s)%nat ->
  split_go sep k cur s = split_go sep O cur (drop k s).
Proof.
  revert s; induction k as [|k IH]; intros s L.
  - now destruct s.
  - destruct s as [|c s]; simpl in L; [lia|].
    simpl. apply IH. lia.
Qed.

(** [split] cuts at the first separator and goes on behind it. *)
Lemma split_go_cut (sep : string) (cur s : string) :
  sep <> "" ->
  split_go sep O cur s =
    match cut sep s with
    | None => [cur ++ s]
    | Some (a, b) => (cur ++ a) :: split_go sep O "" b
    end.
Proof.
  intros NE. revert cur; induction s as [|c s IH]; intros cur.
  - simpl. destruct sep; [now elim NE|]. simpl. now rewrite append_empty.
  - cbn [split_go cut]. destruct (String.prefix sep (String c s)) eqn:P.
    + rewrite append_empty. f_equal.
      pose proof (prefix_length _ _ P) as L.
      destruct sep as [|x sep]; [now elim NE|].
      simpl in L. cbn [String.length Nat.pred drop].
      apply split_go_skip. lia.
    + rewrite IH. destruct (cut sep s) as [[a b]|].
      * now rewrite append_cons.
      * now rewrite append_cons.
Qed.

(** The field [split(sep)[1]]. *)
Lemma split_second (sep s : string) :
  sep <> "" ->
  nth_error (split_go sep O "" s) 1 =
    match cut sep s with
    | None => None
    | Some (_, after) =>
        Some (match cut sep after with
              | Some (segment, _) => segment
              | None => after
              end)
    end.
Proof.
  intros NE. rewrite (split_go_cut sep "" s NE).
  destruct (cut sep s) as [[a b]|]; [|reflexivity].
  cbn [nth_error]. rewrite (split_go_cut sep "" b NE).
  now destruct (cut sep b) as [[a' b']|].
Qed.

End Text.

(** *** The status word *)

Section StatusWord.

(** Masking with a power of two keeps that one bit. *)
Lemma land_pow2 (word n : Z) :
  0 <= n ->
  Z.land word (Z.shiftl 1 n) = if Z.testbit word n then 2 ^ n else 0.
Proof.
  intros Hn. rewrite Z.shiftl_1_l. apply Z.bits_inj'. intros m Hm.
  rewrite Z.land_spec, (Z.pow2_bits_eqb n m Hn).
  destruct (Z.eqb_spec n m) as [<-|N].
  - destruct (Z.testbit word n) eqn:B.
    + now rewrite Z.pow2_bits_true.
    + now rewrite Z.bits_0.
  - rewrite andb_false_r. destruct (Z.testbit word n).
    + rewrite (Z.pow2_bits_eqb n m Hn). symmetry. now apply Z.eqb_neq.
    + now rewrite Z.bits_0.
Qed.

Lemma land_pow2_nonzero (word n : Z) :
  0 <= n ->
  (Z.land word (Z.shiftl 1 n) <> 0 <-> Z.testbit word n = true).
Proof.
  intros Hn. rewrite (land_pow2 word n Hn).
  destruct (Z.testbit word n); split; intros H; try easy.
  assert (0 < 2 ^ n) by now apply Z.pow_pos_nonneg. lia.
Qed.

Lemma decode_controllable (status : PyObj) (channel : Z) :
  channel = 1 \/ channel = 2 ->
  _decode_channel_status status channel =
    rbind (py_and status (Z.shiftl 1 (channel + 3)))
      (fun bits => Ok (PStr (if negb (bits =? 0) then "ON" else "OFF"))).
Proof. intros [-> | ->]; reflexivity. Qed.

Lemma decode_word (word channel : Z) :
  channel = 1 \/ channel = 2 ->
  _decode_channel_status (Atom (PInt word)) channel =
    Ok (PStr (if Z.testbit word (channel + 3) then "ON" else "OFF")).
Proof.
  intros C. rewrite (decode_controllable _ _ C). cbn [py_and rbind].
  rewrite land_pow2 by lia.
  destruct (Z.testbit word (channel + 3)); [|reflexivity].
  assert (0 < 2 ^ (channel + 3)) by (apply Z.pow_pos_nonneg; lia).
  destruct (Z.eqb_spec (2 ^ (channel + 3)) 0); [lia | reflexivity].
Qed.

(** C4. For a channel in {1, 2} and every status word,
    [_decode_channel_status] returns "ON" if and only if bit [channel + 3]
    of the word is set, that is if and only if
    [word & (1 << (channel + 3)) != 0], and "OFF" otherwise. For channel 1
    the mask is 0x10; the word 0x30 gives "ON" and the word 0x20 "OFF". *)
Theorem decode_channel_status_bit :
  (forall word channel : Z,
     channel = 1 \/ channel = 2 ->
     (_decode_channel_status (Atom (PInt word)) channel = Ok (PStr "ON")
        <-> Z.testbit word (channel + 3) = true)
     /\ (_decode_channel_status (Atom (PInt word)) channel = Ok (PStr "OFF")
        <-> Z.testbit word (channel + 3) = false)
     /\ (Z.testbit word (channel + 3) = true
        <-> Z.land word (Z.shiftl 1 (channel + 3)) <> 0))
  /\ Z.shiftl 1 (1 + 3) = 16
  /\ _decode_channel_status (Atom (PInt 48)) 1 = Ok (PStr "ON")
  /\ _decode_channel_status (Atom (PInt 32)) 1 = Ok (PStr "OFF").
Proof.
  split; [|repeat split].
  intros word channel C. rewrite (decode_word word channel C).
  split; [|split].
  - destruct (Z.testbit word (channel + 3)); split; intros H;
      try reflexivity; discriminate.
  - destruct (Z.testbit word (channel + 3)); split; intros H;
      try reflexivity; discriminate.
  - symmetry. apply land_pow2_nonzero. lia.
Qed.

Lemma decode_channel_status_bit_witness :
  (1 = 1 \/ 1 = 2)
  /\ (_decode_channel_status (Atom (PInt 48)) 1 = Ok (PStr "ON")
      <-> Z.testbit 48 (1 + 3) = true).
Proof.
  split; [now left|].
  exact (proj1 (proj1 decode_channel_status_bit 48 1 (or_introl eq_refl))).
Defined.

(** C9. For a channel outside {1, 2} (channel 3, say) and every status,
    [_decode_channel_status] fails its assertion and returns no status;
    for a channel in {1, 2} the assertion never fails, and every status
    word is decoded. *)
Theorem decode_channel_status_assert (status : PyObj) (channel : Z) :
  (~ (channel = 1 \/ channel = 2) ->
     _decode_channel_status status channel = Raise AssertionError)
  /\ (channel = 1 \/ channel = 2 ->
     _decode_channel_status status channel <> Raise AssertionError
     /\ forall word : Z, exists token : string,
          _decode_channel_status (Atom (PInt word)) channel = Ok (PStr token)).
Proof.
  split.
  - intros N. unfold _decode_channel_status.
    cbn [CONTROLLABLE_CHANNELS existsb].
    destruct (Z.eqb_spec channel 1) as [->|N1]; [elim N; now left|].
    destruct (Z.eqb_spec channel 2) as [->|N2]; [elim N; now right|].
    reflexivity.
  - intros C. split.
    + rewrite (decode_controllable _ _ C).
      destruct (py_and status (Z.shiftl 1 (channel + 3))) as [bits|e] eqn:A;
        cbn [rbind]; [discriminate|].
      destruct status as [[| | | |]|]; cbn [py_and] in A;
        try discriminate; injection A as <-; discriminate.
    + intros word. rewrite (decode_word word channel C). eauto.
Qed.

Lemma decode_channel_status_assert_witness :
  (~ (3 = 1 \/ 3 = 2)
   /\ _decode_channel_status (Atom (PInt 48)) 3 = Raise AssertionError)
  /\ ((2 = 1 \/ 2 = 2)
      /\ _decode_channel_status (Atom (PInt 48)) 2 <> Raise AssertionError).
Proof.
  assert (N : ~ (3 = 1 \/ 3 = 2)) by (intros [H | H]; discriminate H).
  split; split.
  - exact N.
  - exact (proj1 (decode_channel_status_assert (Atom (PInt 48)) 3) N).
  - now right.
  - exact (proj1 (proj2 (decode_channel_status_assert (Atom (PInt 48)) 2)
                    (or_intror eq_refl))).
Defined.

End StatusWord.

(** *** Assigning to the properties *)

Section Assignment.
Context {FT : FloatText}.

(** A template without a conversion accepts no argument. *)
Lemma format_query_template (a : string) :
  format_go "CH1:VOLTage?" (Some a) = Raise TypeError
  /\ format_go "CH2:VOLTage?" (Some a) = Raise TypeError
  /\ format_go "CH1:CURRent?" (Some a) = Raise TypeError
  /\ format_go "CH2:CURRent?" (Some a) = Raise TypeError.
Proof. repeat split; reflexivity. Qed.

(** Whatever an assignment does, it leaves the session as it found it and
    raises, or it adds one write and returns. *)
Lemma set_writes_at_most_once (p : Property) (value : PyVal) (s : Session) :
  (exists e, fset p value s = (Raise e, s))
  \/ (exists command, fset p value s = (Ok tt, emit (Write command) s)).
Proof.
  unfold fset. destruct (set_command p) as [template|].
  - unfold bind, lift, write.
    destruct (validator p value (values p)) as [checked|e]; [|left; eauto].
    destruct (if map_values p then map_to_wire (values p) checked
              else Ok checked) as [mapped|e]; [|left; eauto].
    destruct (py_format template mapped) as [command|e]; [|left; eauto].
    right; eauto.
  - left. exists AttributeError. reflexivity.
Qed.

(** C8. For every property of the driver that can be assigned to (the
    three statuses, the two voltages, the two currents) and every value the
    validator of the property rejects, the assignment raises what the
    validator raised and the session is left as it was: nothing is sent. *)
Theorem rejected_set_sends_nothing
    (p : Property) (value : PyVal) (e : Exn) (s : Session) :
  In p assignable ->
  validator p value (values p) = Raise e ->
  fset p value s = (Raise e, s).
Proof.
  intros I V.
  assert (exists template, set_command p = Some template) as [template T].
  { unfold assignable in I; cbn [In] in I.
    repeat (destruct I as [<- | I]; [cbn; eauto|]). now elim I. }
  unfold fset, bind, lift. now rewrite T, V.
Qed.

(** The commands as the declarations place them: the statuses have the
    query first and the write template second, the voltages and currents
    the other way round. *)
Lemma declared_commands :
  (get_command ch1_status, set_command ch1_status)
    = (Some "SYSTem:STATus?", Some "OUTPut CH1,%s")
  /\ (get_command ch1_voltage, set_command ch1_voltage)
    = (Some "CH1:VOLTage %s", Some "CH1:VOLTage?")
  /\ (get_command ch1_current, set_command ch1_current)
    = (Some "CH1:CURRent %s", Some "CH1:CURRent?").
Proof. repeat split. Qed.

(** A status that is no boolean (nor 0 or 1) is refused. *)
Lemma status_set_rejects_text (s : Session) :
  fset ch1_status (PStr "ON") s = (Raise ValueError, s)
  /\ fset ch3_status PNone s = (Raise ValueError, s).
Proof. split; reflexivity. Qed.

(** The status setters put the text of the Python boolean on the wire. *)
Lemma status_set (b : bool) (s : Session) :
  fset ch1_status (PBool b) s
    = (Ok tt, emit (Write ("OUTPut CH1," ++ (if b then "True" else "False"))) s)
  /\ fset ch2_status (PBool b) s
    = (Ok tt, emit (Write ("OUTPut CH2," ++ (if b then "True" else "False"))) s)
  /\ fset ch3_status (PBool b) s
    = (Ok tt, emit (Write ("OUTPut CH3," ++ (if b then "True" else "False"))) s).
Proof. destruct b; repeat split; reflexivity. Qed.

(** C2 (what the code does). For every boolean [b] the assignment
    [ch{n}_status = b], n in {1, 2, 3}, passes validation and sends
    [OUTPut CH{n},True] or [OUTPut CH{n},False]: the text of the boolean,
    not the tokens ON and OFF of [CHANNEL_STATUS_VALUE_MAP]. *)
Theorem status_set_sends_python_boolean (b : bool) (s : Session) :
  strict_discrete_set (PBool b) CHANNEL_STATUS_VALUE_MAP = Ok (PBool b)
  /\ fset ch1_status (PBool b) s
    = (Ok tt, emit (Write (if b then "OUTPut CH1,True" else "OUTPut CH1,False")) s)
  /\ fset ch2_status (PBool b) s
    = (Ok tt, emit (Write (if b then "OUTPut CH2,True" else "OUTPut CH2,False")) s)
  /\ fset ch3_status (PBool b) s
    = (Ok tt, emit (Write (if b then "OUTPut CH3,True" else "OUTPut CH3,False")) s).
Proof. destruct b; repeat split; reflexivity. Qed.

(** With [map_values=True] the same declarations would send the tokens. *)
Lemma status_set_with_map_values (b : bool) (s : Session) :
  fset (control "SYSTem:STATus?" "OUTPut CH1,%s"
          strict_discrete_set CHANNEL_STATUS_VALUE_MAP true (decode_for 1))
       (PBool b) s
    = (Ok tt, emit (Write (if b then "OUTPut CH1,ON" else "OUTPut CH1,OFF")) s)
  /\ fset (setting "OUTPut CH3,%s"
          strict_discrete_set CHANNEL_STATUS_VALUE_MAP true)
       (PBool b) s
    = (Ok tt, emit (Write (if b then "OUTPut CH3,ON" else "OUTPut CH3,OFF")) s).
Proof. destruct b; split; reflexivity. Qed.

(** C6 (what the code does). Construction sends three writes and nothing
    else, for channels 1, 2, 3 in that order; shutdown sends the same three
    writes and then closes the session once. The three writes carry the
    token [False], not [OFF]. *)
Theorem init_and_shutdown_traffic (resourceName : string) (s : Session) :
  __init__ resourceName s
    = (Ok tt,
       {| sent := sent s ++ [Write "OUTPut CH1,False";
                             Write "OUTPut CH2,False";
                             Write "OUTPut CH3,False"];
          inbox := inbox s |})
  /\ shutdown s
    = (Ok tt,
       {| sent := sent s ++ [Write "OUTPut CH1,False";
                             Write "OUTPut CH2,False";
                             Write "OUTPut CH3,False";
                             Close];
          inbox := inbox s |}).
Proof.
  unfold __init__, shutdown, Instrument_init, Instrument_shutdown, close.
  unfold bind at 1 2 3. unfold ret.
  split.
  - unfold bind.
    rewrite (proj1 (status_set false s)).
    rewrite (proj1 (proj2 (status_set false _))).
    rewrite (proj2 (proj2 (status_set false _))).
    unfold emit; cbn [sent inbox app]. now rewrite <- !app_assoc.
  - unfold bind.
    rewrite (proj1 (status_set false s)).
    rewrite (proj1 (proj2 (status_set false _))).
    rewrite (proj2 (proj2 (status_set false _))).
    unfold emit; cbn [sent inbox app]. now rewrite <- !app_assoc.
Qed.

End Assignment.

(** *** The ranges of voltage and current *)

Section Ranges.
Context {FT : FloatText}.

(** [a <= b] fails exactly on a NaN and when [b < a]. *)
Lemma float_le_false (a b : pyfloat) :
  float_le a b = false <-> a = NaN \/ b = NaN \/ float_lt b a = true.
Proof.
  destruct a, b; cbn; try rewrite negb_true_iff; intuition congruence.
Qed.

Lemma range_check (lo hi : Q) (x : pyfloat) :
  float_le (Finite lo) x && float_le x (Finite hi) = false
  <-> x = NaN \/ float_lt x (Finite lo) = true \/ float_lt (Finite hi) x = true.
Proof.
  rewrite andb_false_iff, !float_le_false. intuition congruence.
Qed.

Lemma strict_range_voltage (value : PyVal) (x : pyfloat) :
  number value = Some x ->
  strict_range value CHANNEL_VOLTAGE_RANGE =
    if float_le (Finite 0) x && float_le x (Finite 32)
    then Ok value else Raise ValueError.
Proof.
  intros N. unfold strict_range.
  change (py_min (elements CHANNEL_VOLTAGE_RANGE)) with (Ok (PFloat (Finite 0))).
  change (py_max (elements CHANNEL_VOLTAGE_RANGE)) with (Ok (PFloat (Finite 32))).
  cbn [rbind]. unfold py_le. cbn [number]. rewrite N. cbn [rbind].
  destruct (float_le (Finite 0) x); [|reflexivity].
  cbn [rbind andb]. now destruct (float_le x (Finite 32)).
Qed.

Lemma strict_range_current (value : PyVal) (x : pyfloat) :
  number value = Some x ->
  strict_range value CHANNEL_CURRENT_RANGE =
    if float_le (Finite 0) x && float_le x (Finite float_3_2)
    then Ok value else Raise ValueError.
Proof.
  intros N. unfold strict_range.
  change (py_min (elements CHANNEL_CURRENT_RANGE)) with (Ok (PInt 0)).
  change (py_max (elements CHANNEL_CURRENT_RANGE))
    with (Ok (PFloat (Finite float_3_2))).
  cbn [rbind]. unfold py_le. cbn [number]. rewrite N. cbn [rbind].
  change (inject_Z 0) with 0%Q.
  destruct (float_le (Finite 0) x); [|reflexivity].
  cbn [rbind andb]. now destruct (float_le x (Finite float_3_2)).
Qed.

(** The bounds themselves pass the validators. *)
Lemma range_bounds_pass :
  strict_range (PFloat (Finite 0)) CHANNEL_VOLTAGE_RANGE = Ok (PFloat (Finite 0))
  /\ strict_range (PFloat (Finite 32)) CHANNEL_VOLTAGE_RANGE
      = Ok (PFloat (Finite 32))
  /\ strict_range (PFloat (Finite 0)) CHANNEL_CURRENT_RANGE
      = Ok (PFloat (Finite 0))
  /\ strict_range (PFloat (Finite float_3_2)) CHANNEL_CURRENT_RANGE
      = Ok (PFloat (Finite float_3_2)).
Proof. repeat split; vm_compute; reflexivity. Qed.

(** An assignment to a voltage or a current: the validator, then a
    template that takes no argument. *)
Lemma set_voltage_or_current (p : Property) (value : PyVal) (s : Session) :
  In p [ch1_voltage; ch2_voltage; ch1_current; ch2_current] ->
  fset p value s =
    (match validator p value (values p) with
     | Ok _ => Raise TypeError
     | Raise e => Raise e
     end, s).
Proof.
  intros I. cbn [In] in I.
  destruct I as [<- | [<- | [<- | [<- | []]]]];
    unfold fset, bind, lift; cbn [set_command validator values map_values
      ch1_voltage ch2_voltage ch1_current ch2_current control
      map_values_default];
    match goal with
    | |- context [strict_range value ?r] =>
        destruct (strict_range value r) as [checked|e]; [|reflexivity]
    end;
    unfold py_format;
    [ rewrite (proj1 (format_query_template _))
    | rewrite (proj1 (proj2 (format_query_template _)))
    | rewrite (proj1 (proj2 (proj2 (format_query_template _))))
    | rewrite (proj2 (proj2 (proj2 (format_query_template _)))) ];
    reflexivity.
Qed.

(** C7, amended. For every number [v], assigning it to [ch1_voltage] or
    [ch2_voltage] raises [ValueError] (the RangeError of the specification)
    if and only if [v] is NaN, [v < 0.0] or [v > 32.0]; assigning it to
    [ch1_current] or [ch2_current] raises [ValueError] if and only if [v]
    is NaN, [v < 0.0] or [v > 3.2]. So the bounds raise no [ValueError]. *)
Theorem range_error_iff (value : PyVal) (x : pyfloat) (s : Session) :
  number value = Some x ->
  (forall p, In p [ch1_voltage; ch2_voltage] ->
     (fst (fset p value s) = Raise ValueError
      <-> x = NaN \/ float_lt x (Finite 0) = true
                 \/ float_lt (Finite 32) x = true))
  /\ (forall p, In p [ch1_current; ch2_current] ->
     (fst (fset p value s) = Raise ValueError
      <-> x = NaN \/ float_lt x (Finite 0) = true
                 \/ float_lt (Finite float_3_2) x = true)).
Proof.
  intros N. split; intros p I.
  - rewrite set_voltage_or_current by (cbn [In] in *; tauto).
    rewrite <- range_check. cbn [fst].
    assert (validator p value (values p)
            = strict_range value CHANNEL_VOLTAGE_RANGE) as ->
      by (cbn [In] in I; destruct I as [<- | [<- | []]]; reflexivity).
    rewrite (strict_range_voltage value x N).
    destruct (float_le (Finite 0) x && float_le x (Finite 32));
      split; intros H; try reflexivity; discriminate.
  - rewrite set_voltage_or_current by (cbn [In] in *; tauto).
    rewrite <- range_check. cbn [fst].
    assert (validator p value (values p)
            = strict_range value CHANNEL_CURRENT_RANGE) as ->
      by (cbn [In] in I; destruct I as [<- | [<- | []]]; reflexivity).
    rewrite (strict_range_current value x N).
    destruct (float_le (Finite 0) x && float_le x (Finite float_3_2));
      split; intros H; try reflexivity; discriminate.
Qed.

End Ranges.

(** *** Reading the properties *)

Section Reading.
Context {FT : FloatText}.

(** A reply field arrives as a float or as a text, never as an [int]. *)
Lemma cast_float_kind (field : string) :
  (exists f, cast_float field = PFloat f) \/ cast_float field = PStr field.
Proof.
  unfold cast_float. destruct (float_of_str field); [left; eauto | now right].
Qed.

(** [&] with the mask is defined on neither. *)
Lemma decode_field (channel : Z) (field : string) :
  channel = 1 \/ channel = 2 ->
  decode_for channel (Atom (cast_float field)) = Raise TypeError.
Proof.
  intros C. unfold decode_for. rewrite (decode_controllable _ _ C).
  destruct (cast_float_kind field) as [[f ->] | ->]; reflexivity.
Qed.

Lemma decode_fields (channel : Z) (l : list PyVal) :
  channel = 1 \/ channel = 2 ->
  decode_for channel (Seq l) = Raise TypeError.
Proof.
  intros C. unfold decode_for. now rewrite (decode_controllable _ _ C).
Qed.

(** Reading with a read command asks it, whatever comes of the reply. *)
Lemma fget_sends (p : Property) (command : string) (s : Session) :
  get_command p = Some command ->
  sent (snd (fget p s)) = (sent s ++ [Query command])%list.
Proof.
  intros G. unfold fget, read_values, bind, ask, lift, ret. rewrite G.
  destruct (inbox s) as [|reply later]; [reflexivity|].
  cbn [py_split].
  destruct (map cast_float (split_go "," 0 "" (py_strip reply)))
    as [|v [|w l]].
  - now destruct (get_process p (Seq [])).
  - destruct (get_process p (Atom v)); [|reflexivity].
    destruct (map_values p); [|reflexivity].
    now destruct (map_from_wire (values p) a).
  - now destruct (get_process p (Seq (v :: w :: l))).
Qed.

Lemma status_read (p : Property) (channel : Z) (s : Session)
    (reply : string) (later : list string) :
  channel = 1 \/ channel = 2 ->
  get_command p = Some "SYSTem:STATus?" ->
  get_process p = decode_for channel ->
  inbox s = reply :: later ->
  fget p s =
    (Raise TypeError,
     {| sent := sent s ++ [Query "SYSTem:STATus?"]; inbox := later |}).
Proof.
  intros C G P I. unfold fget, read_values, bind, ask, lift, ret.
  rewrite G, I, P. cbn [py_split].
  destruct (split_go "," 0 "" (py_strip reply)) as [|f [|g l]];
    cbn [map].
  - now rewrite decode_fields.
  - now rewrite decode_field.
  - now rewrite decode_fields.
Qed.

(** C3 (what the code does). Reading [ch1_status] or [ch2_status] sends
    [SYSTem:STATus?] and hands the reply field, a float or a text, to
    [_decode_channel_status]; whatever the reply, the read raises
    [TypeError] and returns no value. [_get_system_status] takes no part. *)
Theorem status_read_raises (s : Session) (reply : string) (later : list string) :
  inbox s = reply :: later ->
  fget ch1_status s =
    (Raise TypeError,
     {| sent := sent s ++ [Query "SYSTem:STATus?"]; inbox := later |})
  /\ fget ch2_status s =
    (Raise TypeError,
     {| sent := sent s ++ [Query "SYSTem:STATus?"]; inbox := later |}).
Proof.
  intros I. split.
  - apply (status_read ch1_status 1 s reply later); auto.
  - apply (status_read ch2_status 2 s reply later); auto.
Qed.

(** On the reply [0x10] the route through [_get_system_status] decodes
    channel 1 as ON. *)
Lemma status_from_system_status_example (later : list string) :
  fst (status_from_system_status 1 (fresh ("0x10" :: later)))
    = Ok (PStr "ON").
Proof. reflexivity. Qed.

(** With no reply to come, the read fails in the transport. *)
Lemma fget_no_reply (p : Property) (command : string) (s : Session) :
  get_command p = Some command ->
  inbox s = [] ->
  fget p s = (Raise VisaIOError, emit (Query command) s).
Proof.
  intros G I. unfold fget, read_values, bind, ask. now rewrite G, I.
Qed.

(** A status read never returns. *)
Lemma status_read_fails (s : Session) :
  (exists e, fst (fget ch1_status s) = Raise e)
  /\ (exists e, fst (fget ch2_status s) = Raise e).
Proof.
  destruct (inbox s) as [|reply later] eqn:I.
  - rewrite (fget_no_reply ch1_status "SYSTem:STATus?" s eq_refl I).
    rewrite (fget_no_reply ch2_status "SYSTem:STATus?" s eq_refl I).
    split; eexists; reflexivity.
  - rewrite (status_read ch1_status 1 s reply later) by auto.
    rewrite (status_read ch2_status 2 s reply later) by auto.
    split; eexists; reflexivity.
Qed.

(** C10 (what the code does). Reading [ch3_status] raises [LookupError]
    and leaves the session untouched: no query is sent. Reading
    [ch1_status] or [ch2_status] does send [SYSTem:STATus?], but it raises
    as well, so neither can be read. *)
Theorem ch3_status_read (s : Session) :
  fget ch3_status s = (Raise LookupError, s)
  /\ sent (snd (fget ch1_status s)) = (sent s ++ [Query "SYSTem:STATus?"])%list
  /\ sent (snd (fget ch2_status s)) = (sent s ++ [Query "SYSTem:STATus?"])%list
  /\ (exists e, fst (fget ch1_status s) = Raise e)
  /\ (exists e, fst (fget ch2_status s) = Raise e).
Proof.
  split; [reflexivity|].
  split; [now apply fget_sends|].
  split; [now apply fget_sends|].
  apply status_read_fails.
Qed.

(** C1 (what the code does). The declarations of the voltages and the
    currents give the command template as the read command and the query
    as the write template. So an assignment never writes: it raises and
    leaves the session as it was, with [TypeError] for a value in range
    such as 3.3 V or 0.5 A. And a read sends the unfilled template,
    [CH{n}:VOLTage %s] or [CH{n}:CURRent %s]. *)
Theorem voltage_and_current_commands (value : PyVal) (s : Session) :
  Forall (fun p => exists e, fset p value s = (Raise e, s))
    [ch1_voltage; ch2_voltage; ch1_current; ch2_current]
  /\ fset ch1_voltage (PFloat (Finite (33 # 10))) s = (Raise TypeError, s)
  /\ fset ch1_current (PFloat (Finite (1 # 2))) s = (Raise TypeError, s)
  /\ map (fun p => sent (snd (fget p s)))
        [ch1_voltage; ch2_voltage; ch1_current; ch2_current]
     = map (fun query => (sent s ++ [Query query])%list)
        ["CH1:VOLTage %s"; "CH2:VOLTage %s";
         "CH1:CURRent %s"; "CH2:CURRent %s"].
Proof.
  split; [|split; [|split]].
  - apply Forall_forall. intros p I.
    rewrite (set_voltage_or_current p value s I).
    destruct (validator p value (values p)); eauto.
  - rewrite set_voltage_or_current by (cbn [In]; tauto). reflexivity.
  - rewrite set_voltage_or_current by (cbn [In]; tauto). reflexivity.
  - cbn [map]. repeat f_equal; now apply fget_sends.
Qed.

(** *** The system status *)

Lemma py_int_raises (text : string) (base : Z) (e : Exn) :
  py_int text base = Raise e -> e = ValueError.
Proof.
  unfold py_int.
  destruct (strip_sign (lstrip isspace_int text)) as [neg s1].
  destruct (strip_prefix base s1) as [|c s2].
  - destruct (scan_digits base false false 0 "") as [[[v [|]] rest]|];
      try congruence.
    destruct (all_space rest); congruence.
  - destruct (Ascii.eqb_spec c "_") as [->|N]; [congruence|].
    assert (forall r : Result Z,
      match c with
      | "_"%char => Raise ValueError
      | _ => r
      end = Raise e -> r = Raise e \/ e = ValueError) as A.
    { intros r. destruct c as [[|] [|] [|] [|] [|] [|] [|] [|]];
        intros H; auto; right; congruence. }
    intros H. apply A in H. destruct H as [H | H]; [|exact H].
    destruct (scan_digits base false false 0 (String c s2))
      as [[[v [|]] rest]|]; try congruence.
    destruct (all_space rest); congruence.
Qed.

(** Strings of hex digits are read by position. *)
Lemma hex_digit_plain (c : ascii) :
  is_hex_digit c = true ->
  isspace_int c = false /\ is_underscore c = false
  /\ prefix_letter 16 c = false /\ c <> "+"%char /\ c <> "-"%char.
Proof.
  destruct c as [[|] [|] [|] [|] [|] [|] [|] [|]]; vm_compute; intros H;
    try discriminate H; repeat split; discriminate.
Qed.

Lemma strip_sign_none (c : ascii) (s : string) :
  c <> "+"%char -> c <> "-"%char ->
  strip_sign (String c s) = (false, String c s).
Proof.
  intros P M.
  destruct c as [[|] [|] [|] [|] [|] [|] [|] [|]]; try reflexivity;
    [now elim M | now elim P].
Qed.

Lemma strip_prefix_none (c : ascii) (s : string) :
  prefix_letter 16 c = false ->
  (forall d s', s = String d s' -> prefix_letter 16 d = false) ->
  strip_prefix 16 (String c s) = String c s.
Proof.
  intros _ H. unfold strip_prefix.
  destruct s as [|d s'];
    [now destruct c as [[|] [|] [|] [|] [|] [|] [|] [|]]|].
  rewrite (H d s' eq_refl).
  now destruct c as [[|] [|] [|] [|] [|] [|] [|] [|]].
Qed.

Lemma scan_hex_digits (digits : string) (any : bool) (acc : Z) :
  forallb is_hex_digit (list_ascii_of_string digits) = true ->
  scan_digits 16 false any acc digits =
    Some (fold_left (fun a c => a * 16 + digit_value c)
            (list_ascii_of_string digits) acc,
          match digits with EmptyString => any | _ => true end,
          "").
Proof.
  revert any acc; induction digits as [|c digits IH]; intros any acc H.
  - reflexivity.
  - cbn [list_ascii_of_string forallb] in H.
    apply andb_true_iff in H as [Hc H].
    destruct (hex_digit_plain c Hc) as (_ & U & _).
    cbn [scan_digits list_ascii_of_string fold_left]. rewrite U.
    unfold is_hex_digit in Hc. rewrite Hc.
    rewrite (IH true _ H). now destruct digits.
Qed.

Lemma py_int_hex_digits (digits : string) :
  digits <> "" ->
  forallb is_hex_digit (list_ascii_of_string digits) = true ->
  py_int digits 16 = Ok (hex_value digits).
Proof.
  intros NE H. destruct digits as [|c digits]; [now elim NE|].
  pose proof H as H'. cbn [list_ascii_of_string forallb] in H'.
  apply andb_true_iff in H' as [Hc Hd].
  destruct (hex_digit_plain c Hc) as (Sp & U & Px & Plus & Minus).
  unfold py_int. cbn [lstrip]. rewrite Sp.
  rewrite (strip_sign_none c digits Plus Minus).
  rewrite strip_prefix_none; [|exact Px|].
  - rewrite (scan_hex_digits (String c digits) false 0 H).
    cbn [all_space lstrip]. unfold hex_value.
    assert (forall r : Result Z,
      match c with
      | "_"%char => Raise ValueError
      | _ => r
      end = r) as ->; [|reflexivity].
    intros r. unfold is_underscore in U.
    destruct (Ascii.eqb_spec c "_") as [->|N]; [discriminate U|].
    destruct c as [[|] [|] [|] [|] [|] [|] [|] [|]]; try reflexivity.
    now elim N.
  - intros d s' ->. cbn [list_ascii_of_string forallb] in Hd.
    apply andb_true_iff in Hd as [Hd _].
    now destruct (hex_digit_plain d Hd) as (_ & _ & Px' & _).
Qed.

Lemma get_system_status_run (s : Session) (reply : string)
    (later : list string) :
  inbox s = reply :: later ->
  _get_system_status s =
    (match cut "0x" reply with
     | None => Raise IndexError
     | Some (_, after) => py_int (up_to_0x after) 16
     end,
     {| sent := sent s ++ [Query "SYSTem:STATus?"]; inbox := later |}).
Proof.
  intros I. unfold _get_system_status, bind, ask, lift. rewrite I.
  cbn [py_split]. unfold py_index.
  rewrite split_second by discriminate. unfold up_to_0x.
  destruct (cut "0x" reply) as [[before after]|]; reflexivity.
Qed.

(** C5, amended. [_get_system_status] sends the query [SYSTem:STATus?].
    For every reply it takes the text between the first [0x] and the next
    [0x], or the end of the reply when there is no other, and parses it as
    a base-16 integer (hex digits are read by position); the reply
    "SPD3303C STATus 0x1A" gives 26. It fails with [IndexError] when the
    reply contains no [0x] and with [ValueError] when that text does not
    parse (the ProtocolError of the specification). *)
Theorem get_system_status_outcome :
  (forall (s : Session) (reply : string) (later : list string),
     inbox s = reply :: later ->
     _get_system_status s =
       (match cut "0x" reply with
        | None => Raise IndexError
        | Some (_, after) => py_int (up_to_0x after) 16
        end,
        {| sent := sent s ++ [Query "SYSTem:STATus?"]; inbox := later |}))
  /\ (forall digits : string,
       digits <> "" ->
       forallb is_hex_digit (list_ascii_of_string digits) = true ->
       py_int digits 16 = Ok (hex_value digits))
  /\ (forall (text : string) (e : Exn),
       py_int text 16 = Raise e -> e = ValueError)
  /\ (forall (s : Session) (later : list string),
       inbox s = "SPD3303C STATus 0x1A" :: later ->
       fst (_get_system_status s) = Ok 26).
Proof.
  split; [exact get_system_status_run|].
  split; [exact py_int_hex_digits|].
  split.
  - intros text e. apply py_int_raises.
  - intros s later I. now rewrite (get_system_status_run s _ later I).
Qed.

(** With a single [0x] in the reply this is the text after it. *)
Lemma get_system_status_single_0x (s : Session) (reply : string)
    (later : list string) :
  inbox s = reply :: later ->
  (forall before after, cut "0x" reply = Some (before, after) ->
     cut "0x" after = None) ->
  agrees (fst (_get_system_status s)) (hex_after_first_0x reply).
Proof.
  intros I Single.
  rewrite (get_system_status_run s reply later I).
  unfold hex_after_first_0x, up_to_0x. cbn [fst].
  destruct (cut "0x" reply) as [[before after]|] eqn:C.
  - rewrite (Single before after eq_refl).
    destruct (py_int after 16) as [n|e]; cbn; eauto.
  - cbn. eauto.
Qed.

End Reading.

(** *** The statements at concrete inputs *)

Lemma rejected_set_sends_nothing_witness :
  In ch1_voltage assignable
  /\ validator ch1_voltage (PFloat (Finite 33)) (values ch1_voltage)
      = Raise ValueError
  /\ @fset plain_text ch1_voltage (PFloat (Finite 33)) (fresh [])
      = (Raise ValueError, fresh []).
Proof.
  assert (I : In ch1_voltage assignable) by (cbn; tauto).
  split; [exact I|]. split; [reflexivity|].
  apply (@rejected_set_sends_nothing plain_text); [exact I | reflexivity].
Defined.

Lemma range_error_iff_witness :
  number (PFloat (Finite 33)) = Some (Finite 33)
  /\ (fst (@fset plain_text ch2_voltage (PFloat (Finite 33)) (fresh []))
        = Raise ValueError
      <-> Finite 33 = NaN \/ float_lt (Finite 33) (Finite 0) = true
                         \/ float_lt (Finite 32) (Finite 33) = true).
Proof.
  split; [reflexivity|].
  apply (proj1 (@range_error_iff plain_text (PFloat (Finite 33)) (Finite 33)
                  (fresh []) eq_refl)).
  cbn; tauto.
Defined.

(** C7 as stated fails at NaN: the assignment raises [ValueError], yet NaN
    is neither below 0.0 nor above 32.0. *)
Lemma range_error_claim_fails_at_nan :
  ~ (fst (@fset plain_text ch1_voltage (PFloat NaN) (fresh []))
       = Raise ValueError
     <-> float_lt NaN (Finite 0) = true \/ float_lt (Finite 32) NaN = true).
Proof.
  intros [H _]. destruct (H eq_refl) as [F | F]; discriminate F.
Qed.

Lemma status_read_raises_witness :
  inbox (fresh ["0x10"]) = ["0x10"]
  /\ @fget plain_text ch1_status (fresh ["0x10"])
      = (Raise TypeError, {| sent := [Query "SYSTem:STATus?"]; inbox := [] |}).
Proof.
  split; [reflexivity|].
  exact (proj1 (@status_read_raises plain_text (fresh ["0x10"]) "0x10" []
                  eq_refl)).
Defined.

Lemma get_system_status_outcome_witness :
  inbox (fresh ["SPD3303C STATus 0x1A"]) = ["SPD3303C STATus 0x1A"]
  /\ _get_system_status (fresh ["SPD3303C STATus 0x1A"])
      = (Ok 26, {| sent := [Query "SYSTem:STATus?"]; inbox := [] |}).
Proof.
  split; [reflexivity|].
  exact (proj1 get_system_status_outcome (fresh ["SPD3303C STATus 0x1A"])
           "SPD3303C STATus 0x1A" [] eq_refl).
Defined.

(** C5 as stated fails on a reply with a second [0x]: the text after the
    first [0x] of "0x1A0x2B" is "1A0x2B", which is no base-16 integer, so a
    failure is claimed; the code returns 26. *)
Lemma get_system_status_claim_fails :
  hex_after_first_0x "0x1A0x2B" = None
  /\ fst (_get_system_status (fresh ["0x1A0x2B"])) = Ok 26
  /\ ~ agrees (fst (_get_system_status (fresh ["0x1A0x2B"])))
             (hex_after_first_0x "0x1A0x2B").
Proof.
  split; [reflexivity|]. split; [reflexivity|].
  intros [e H]. discriminate H.
Qed.

(* ================================================================== *)
(** ** Further properties of the driver *)
(* ================================================================== *)

(** *** Write templates and the status setters *)

Section StatusAssignment.
Context {FT : FloatText}.

Lemma lacks_app (c : ascii) (a b : string) :
  lacks c (a ++ b) = lacks c a && lacks c b.
Proof.
  induction a as [|x a IH]; cbn [append lacks]; [reflexivity|].
  now rewrite IH, andb_assoc.
Qed.






End StatusAssignment.


(** *** The decoder on arbitrary statuses *)

Section Decoder.

(** X2. For a controllable channel the decoder looks at bits 4 and 5 of the
    status word only: a word and the word masked with 0x30 decode alike, so
    no other bit of the word, nor its sign, changes a channel status. *)
Theorem decode_depends_on_bits_4_5 (word channel : Z) :
  channel = 1 \/ channel = 2 ->
  _decode_channel_status (Atom (PInt word)) channel
    = _decode_channel_status (Atom (PInt (Z.land word 48))) channel.
Proof.
  intros C. rewrite !(decode_word _ channel C), Z.land_spec.
  destruct C as [-> | ->]; cbn [Z.add Pos.add Pos.succ];
    now rewrite andb_true_r.
Qed.

Lemma decode_depends_on_bits_4_5_witness :
  (2 = 1 \/ 2 = 2)
  /\ _decode_channel_status (Atom (PInt (-1))) 2
      = _decode_channel_status (Atom (PInt (Z.land (-1) 48))) 2.
Proof.
  split; [now right|].
  exact (decode_depends_on_bits_4_5 (-1) 2 (or_intror eq_refl)).
Defined.

(** X3. For a controllable channel the decoder returns a value exactly for
    an [int] or [bool] status, and that value is the text "ON" or "OFF",
    never a boolean; a [bool] status always decodes as "OFF". For every
    other status ([None], a float, a text, a list) it raises [TypeError]. *)
Theorem decode_outcomes (status : PyObj) (channel : Z) :
  channel = 1 \/ channel = 2 ->
  match status with
  | Atom (PInt word) =>
      _decode_channel_status status channel = Ok (PStr "ON")
      \/ _decode_channel_status status channel = Ok (PStr "OFF")
  | Atom (PBool _) =>
      _decode_channel_status status channel = Ok (PStr "OFF")
  | _ => _decode_channel_status status channel = Raise TypeError
  end.
Proof.
  intros C. destruct status as [[| b | word | f | text] | l];
    try (rewrite (decode_controllable _ _ C); reflexivity).
  - destruct C as [-> | ->]; now destruct b.
  - rewrite (decode_word word channel C).
    destruct (Z.testbit word (channel + 3)); [now left | now right].
Qed.

Lemma decode_outcomes_witness :
  (1 = 1 \/ 1 = 2)
  /\ _decode_channel_status (Atom (PBool true)) 1 = Ok (PStr "OFF")
  /\ _decode_channel_status (Atom (PStr "0x10")) 1 = Raise TypeError.
Proof.
  split; [now left|]. split.
  - exact (decode_outcomes (Atom (PBool true)) 1 (or_introl eq_refl)).
  - exact (decode_outcomes (Atom (PStr "0x10")) 1 (or_introl eq_refl)).
Defined.

End Decoder.

(** *** [split], [join] and the expected reply to the status query *)

Section Replies.

Lemma append_assoc (a b c : string) : (a ++ b) ++ c = a ++ b ++ c.
Proof. induction a as [|x a IH]; cbn [append]; [reflexivity | now rewrite IH]. Qed.

Lemma split_go_nonempty (sep cur s : string) :
  sep <> "" -> split_go sep O cur s <> [].
Proof.
  intros NE. rewrite (split_go_cut sep cur s NE).
  destruct (cut sep s) as [[a b]|]; discriminate.
Qed.

Lemma cut_shorter (sep s a b : string) :
  sep <> "" -> cut sep s = Some (a, b) ->
  (String.length b < String.length s)%nat.
Proof.
  intros NE C. rewrite (cut_occurrence sep s a b C), !length_app.
  destruct sep; [now elim NE | cbn [String.length]; lia].
Qed.

Lemma join_split_go (sep : string) (n : nat) :
  sep <> "" ->
  forall s cur, (String.length s <= n)%nat ->
    join sep (split_go sep O cur s) = cur ++ s.
Proof.
  intros NE. induction n as [|n IH]; intros s cur L.
  - destruct s; [|cbn [String.length] in L; lia].
    cbn. now rewrite append_empty.
  - rewrite (split_go_cut sep cur s NE).
    destruct (cut sep s) as [[a b]|] eqn:C; [|reflexivity].
    pose proof (cut_shorter sep s a b NE C) as Lb.
    pose proof (split_go_nonempty sep "" b NE) as N.
    pose proof (IH b "" ltac:(lia)) as J.
    destruct (split_go sep O "" b) as [|y l]; [now elim N|].
    cbn [join] in *. rewrite J. cbn [append].
    rewrite (cut_occurrence sep s a b C) at 1.
    now rewrite append_assoc.
Qed.

(** X5. [split] loses nothing: joining the fields of [s.split(sep)] with
    [sep] gives [s] back, for every text and every non-empty separator. *)
Theorem join_split (s sep : string) (fields : list string) :
  py_split s sep = Ok fields -> join sep fields = s.
Proof.
  destruct sep as [|c sep]; [discriminate|].
  cbn [py_split]. intros E. injection E as <-.
  apply (join_split_go (String c sep) (String.length s));
    [discriminate | lia].
Qed.

Lemma join_split_witness :
  py_split "a0x1A0x" "0x" = Ok ["a"; "1A"; ""]
  /\ join "0x" ["a"; "1A"; ""] = "a0x1A0x".
Proof.
  split; [reflexivity|].
  exact (join_split "a0x1A0x" "0x" ["a"; "1A"; ""] eq_refl).
Defined.

(** A text without the letter x has no [0x]. *)
Lemma cut_lacks_x (s : string) : lacks "x" s = true -> cut "0x" s = None.
Proof.
  induction s as [|c s IH]; intros L; [reflexivity|].
  cbn [lacks] in L. apply andb_true_iff in L as [_ L].
  cbn [cut]. rewrite (IH L).
  assert (String.prefix "0x" (String c s) = false) as ->; [|reflexivity].
  cbn [String.prefix]. destruct (ascii_dec "0" c); [|reflexivity].
  destruct s as [|d t]; [reflexivity|].
  cbn [lacks] in L. apply andb_true_iff in L as [Ld _].
  cbn [String.prefix].
  destruct (ascii_dec "x" d) as [<-|]; [discriminate Ld | reflexivity].
Qed.

(** The first [0x] behind a text that has none. *)
Lemma cut_first_app (before rest : string) :
  cut "0x" before = None ->
  cut "0x" (before ++ "0x" ++ rest) = Some (before, rest).
Proof.
  induction before as [|c b IH]; intros H.
  - cbn [append cut].
    change (String "0" (String "x" rest)) with ("0x" ++ rest).
    now rewrite prefix_app.
  - cbn [cut] in H.
    destruct (String.prefix "0x" (String c b)) eqn:P; [discriminate|].
    destruct (cut "0x" b) as [[x y]|] eqn:C; [discriminate|].
    pose proof (IH eq_refl) as IH'. cbn [append] in IH'.
    cbn [append cut]. rewrite IH'.
    assert (String.prefix "0x" (String c (b ++ String "0" (String "x" rest)))
            = false) as ->; [|reflexivity].
    cbn [String.prefix] in *. destruct (ascii_dec "0" c); [|reflexivity].
    destruct b as [|d t]; cbn [append String.prefix] in *.
    + now destruct (ascii_dec "x" "0").
    + destruct (ascii_dec "x" d); [destruct t; discriminate P | reflexivity].
Qed.

Lemma all_space_cons (w : ascii) (t : string) :
  all_space (String w t) = true -> isspace_int w = true /\ all_space t = true.
Proof.
  unfold all_space. cbn [lstrip].
  destruct (isspace_int w); [auto | discriminate].
Qed.

Lemma space_plain (w : ascii) :
  isspace_int w = true ->
  is_underscore w = false /\ (digit_value w <? 16) = false
  /\ prefix_letter 16 w = false /\ Ascii.eqb w "x" = false.
Proof.
  destruct w as [[|] [|] [|] [|] [|] [|] [|] [|]]; vm_compute; intros H;
    try discriminate H; repeat split.
Qed.

Lemma all_space_lacks_x (trail : string) :
  all_space trail = true -> lacks "x" trail = true.
Proof.
  induction trail as [|w t IH]; intros A; [reflexivity|].
  apply all_space_cons in A as [W A].
  destruct (space_plain w W) as (_ & _ & _ & X).
  cbn [lacks]. now rewrite X, (IH A).
Qed.

Lemma all_hex_lacks_x (digits : string) :
  all_hex digits = true -> lacks "x" digits = true.
Proof.
  unfold all_hex.
  induction digits as [|c d IH]; intros A; [reflexivity|].
  cbn [list_ascii_of_string forallb] in A.
  apply andb_true_iff in A as [C A].
  destruct (hex_digit_plain c C) as (_ & _ & P & _).
  cbn in P. apply orb_false_iff in P as [X _].
  cbn [lacks]. now rewrite X, (IH A).
Qed.

(** The digit loop reads the digits and stops at the white space. *)
Lemma scan_hex_then_space (digits trail : string) (any : bool) (acc : Z) :
  all_hex digits = true -> all_space trail = true ->
  scan_digits 16 false any acc (digits ++ trail) =
    Some (fold_left (fun a c => a * 16 + digit_value c)
            (list_ascii_of_string digits) acc,
          match digits with EmptyString => any | _ => true end,
          trail).
Proof.
  unfold all_hex. intros H T.
  revert any acc H; induction digits as [|c d IH]; intros any acc H.
  - cbn [append list_ascii_of_string fold_left].
    destruct trail as [|w t]; [reflexivity|].
    apply all_space_cons in T as [W _].
    destruct (space_plain w W) as (U & D & _).
    cbn [scan_digits]. now rewrite U, D.
  - cbn [list_ascii_of_string forallb] in H.
    apply andb_true_iff in H as [Hc H].
    destruct (hex_digit_plain c Hc) as (_ & U & _).
    cbn [append scan_digits list_ascii_of_string fold_left]. rewrite U.
    unfold is_hex_digit in Hc. rewrite Hc.
    rewrite (IH true _ H). now destruct d.
Qed.

Lemma underscore_guard (c : ascii) (r : Result Z) :
  is_underscore c = false ->
  match c with
  | "_"%char => Raise ValueError
  | _ => r
  end = r.
Proof.
  unfold is_underscore. intros U.
  destruct (Ascii.eqb_spec c "_") as [->|N]; [discriminate U|].
  destruct c as [[|] [|] [|] [|] [|] [|] [|] [|]]; try reflexivity.
  now elim N.
Qed.

(** [int(text, 16)] on hex digits with an optional minus sign in front and
    white space behind. *)
Lemma py_int_signed_padded (neg : bool) (digits trail : string) :
  digits <> "" -> all_hex digits = true -> all_space trail = true ->
  py_int ((if neg then "-" else "") ++ digits ++ trail) 16
    = Ok (if neg then - hex_value digits else hex_value digits).
Proof.
  intros NE H T. destruct digits as [|c d]; [now elim NE|].
  pose proof H as H'. unfold all_hex in H'.
  cbn [list_ascii_of_string forallb] in H'.
  apply andb_true_iff in H' as [Hc Hd].
  destruct (hex_digit_plain c Hc) as (Sp & U & Px & Plus & Minus).
  assert (S : strip_sign (lstrip isspace_int
                ((if neg then "-" else "") ++ String c d ++ trail))
              = (neg, String c (d ++ trail))).
  { destruct neg; [reflexivity|].
    cbn [append lstrip]. rewrite Sp. now apply strip_sign_none. }
  unfold py_int. rewrite S.
  rewrite strip_prefix_none; [|exact Px|].
  - rewrite (underscore_guard c _ U).
    change (String c (d ++ trail)) with (String c d ++ trail).
    rewrite (scan_hex_then_space (String c d) trail false 0 H T), T.
    reflexivity.
  - intros x t E. destruct d as [|y d'].
    + cbn [append] in E. destruct trail as [|w t']; [discriminate|].
      injection E as <- <-. apply all_space_cons in T as [W _].
      now destruct (space_plain w W) as (_ & _ & P & _).
    + cbn [append] in E. injection E as <- <-.
      cbn [list_ascii_of_string forallb] in Hd.
      apply andb_true_iff in Hd as [Hy _].
      now destruct (hex_digit_plain y Hy) as (_ & _ & P & _).
Qed.

(** X4. On a reply of the expected form, any text without [0x], then [0x],
    an optional minus sign, one or more hex digits of either case, and
    possibly white space such as a line end, [_get_system_status] returns
    the number the digits denote, negated under the sign. *)
Theorem get_system_status_expected_reply
    (s : Session) (before digits trail : string) (neg : bool)
    (later : list string) :
  inbox s
    = (before ++ "0x" ++ (if neg then "-" else "") ++ digits ++ trail) :: later ->
  cut "0x" before = None ->
  digits <> "" -> all_hex digits = true -> all_space trail = true ->
  _get_system_status s =
    (Ok (if neg then - hex_value digits else hex_value digits),
     {| sent := sent s ++ [Query "SYSTem:STATus?"]; inbox := later |}).
Proof.
  intros I B NE H T.
  rewrite (get_system_status_run s _ later I), (cut_first_app _ _ B).
  unfold up_to_0x. rewrite cut_lacks_x.
  - now rewrite py_int_signed_padded.
  - rewrite !lacks_app, (all_hex_lacks_x _ H), (all_space_lacks_x _ T).
    now destruct neg.
Qed.

Lemma get_system_status_expected_reply_witness :
  inbox (fresh ["SPD3303C STATus 0x-1a "])
    = ("SPD3303C STATus " ++ "0x" ++ "-" ++ "1a" ++ " ") :: []
  /\ cut "0x" "SPD3303C STATus " = None
  /\ "1a" <> "" /\ all_hex "1a" = true /\ all_space " " = true
  /\ _get_system_status (fresh ["SPD3303C STATus 0x-1a "])
      = (Ok (-26), {| sent := [Query "SYSTem:STATus?"]; inbox := [] |}).
Proof.
  repeat (split; [first [reflexivity | discriminate]|]).
  exact (get_system_status_expected_reply (fresh ["SPD3303C STATus 0x-1a "])
           "SPD3303C STATus " "1a" " " true [] eq_refl eq_refl
           ltac:(discriminate) eq_refl eq_refl).
Defined.

End Replies.

(** *** Reads, measurements and integer set points *)

Section Exchanges.
Context {FT : FloatText}.




(** X9. For an [int] set point the range validators decide by the integer
    bounds: a voltage passes exactly from 0 to 32 and a current exactly
    from 0 to 3, the largest integer below 3.2; any other integer is a
    [ValueError]. *)
Theorem integer_set_points (z : Z) :
  strict_range (PInt z) CHANNEL_VOLTAGE_RANGE
    = (if (0 <=? z) && (z <=? 32) then Ok (PInt z) else Raise ValueError)
  /\ strict_range (PInt z) CHANNEL_CURRENT_RANGE
    = (if (0 <=? z) && (z <=? 3) then Ok (PInt z) else Raise ValueError).
Proof.
  rewrite (strict_range_voltage (PInt z) _ eq_refl).
  rewrite (strict_range_current (PInt z) _ eq_refl).
  cbn [float_le]. unfold Qle_bool, float_3_2.
  cbn [Qnum Qden inject_Z].
  replace (0 * 1 <=? z * 1) with (0 <=? z) by (f_equal; lia).
  replace (z * 1 <=? 32 * 1) with (z <=? 32) by (f_equal; lia).
  replace (z * Z.pos 1125899906842624 <=? 3602879701896397 * 1)
    with (z <=? 3); [split; reflexivity|].
  destruct (Z.leb_spec z 3), (Z.leb_spec (z * Z.pos 1125899906842624)
                                 (3602879701896397 * 1)); lia.
Qed.

End Exchanges.



